(** * usbreset.c: the USB device reset utility

    A shallow embedding of [src/sms_gateway/usbreset.c].  The program is one
    function, [main], that talks to the operating system through [open],
    [ioctl] and [close], reads [errno], and writes to the two standard
    streams.  The operating system and the C library are a [Platform]: a
    record of transition functions over an abstract [world].  The program
    runs in a small state monad over the process state: the world plus a
    log of everything the process did, in order. *)

From Stdlib Require Import ZArith List String Ascii Bool Lia.
Import ListNotations.

Local Open Scope string_scope.
Local Open Scope Z_scope.

(** ** The platform: kernel, C library and headers *)

(** A system call maps the world before the call to its [int] return value
    and the world after it.  [errno] is a thread-local variable of the C
    library; it is read off the world, so every call may change it.  The
    constants that the included headers provide are fields as well:
    [O_WRONLY] comes from [<fcntl.h>]; [header_USBDEVFS_RESET] is the
    replacement text of the macro [USBDEVFS_RESET] once the six [#include]
    lines have been read, or [None] when none of them defines it.
    [null_text] is what the [%s] conversion of the C library writes for a
    null pointer (ISO C leaves that case undefined). *)
Record Platform : Type := {
  world : Type;
  errno : world -> Z;
  sys_open : string -> Z -> world -> Z * world;
  sys_ioctl : Z -> Z -> Z -> world -> Z * world;
  sys_close : Z -> world -> Z * world;
  strerror : Z -> string;
  O_WRONLY : Z;
  header_USBDEVFS_RESET : option Z;
  null_text : string
}.

(** ** What a process does *)

Inductive stream : Type := Stdout | Stderr.

(** One entry per action of the process.  A system call is logged with its
    arguments, its return value [ret] and the value [err] that [errno]
    holds when the call returns. *)
Inductive event : Type :=
| SysOpen (path : string) (flags ret err : Z)
| SysIoctl (fd request arg ret err : Z)
| SysClose (fd ret err : Z)
| Fprintf (to : stream) (text : string).

Definition trace : Type := list event.

Section Process.

Variable P : Platform.

Record proc : Type := { os : world P; log : trace }.

(** The state monad of the process. *)
Definition M (A : Type) : Type := proc -> A * proc.

Definition ret {A : Type} (a : A) : M A := fun s => (a, s).

Definition bind {A B : Type} (m : M A) (k : A -> M B) : M B :=
  fun s => let (a, s') := m s in k a s'.

Definition emit (ev : event) (w : world P) (s : proc) : proc :=
  {| os := w; log := (log s ++ [ev])%list |}.

(** [#ifndef USBDEVFS_RESET / #define USBDEVFS_RESET 21780 / #endif] *)
Definition USBDEVFS_RESET : Z :=
  match header_USBDEVFS_RESET P with
  | Some code => code
  | None => 21780
  end.

(** *** The C library calls the program makes *)

Definition open (path : string) (flags : Z) : M Z := fun s =>
  let (r, w) := sys_open P path flags (os s) in
  (r, emit (SysOpen path flags r (errno P w)) w s).

Definition ioctl (fd request arg : Z) : M Z := fun s =>
  let (r, w) := sys_ioctl P fd request arg (os s) in
  (r, emit (SysIoctl fd request arg r (errno P w)) w s).

Definition close (fd : Z) : M Z := fun s =>
  let (r, w) := sys_close P fd (os s) in
  (r, emit (SysClose fd r (errno P w)) w s).

(** The expression [errno]. *)
Definition get_errno : M Z := fun s => (errno P (os s), s).

(** The line feed that the C escape [\n] denotes. *)
Definition LF : string := String (ascii_of_nat 10) EmptyString.

(** A [char *] argument of a [%s] conversion: a string, or the null
    pointer ([None]). *)
Definition cstr : Type := option string.

Definition conv_s (a : cstr) : string :=
  match a with
  | Some s => s
  | None => null_text P
  end.

(** Formatting, for the one conversion the program uses: every [%s] is
    replaced by the next argument, every other character is copied. *)
Fixpoint format (fmt : string) (args : list cstr) : string :=
  match fmt with
  | EmptyString => EmptyString
  | String c rest =>
      match rest with
      | String d rest' =>
          if (Ascii.eqb c "%" && Ascii.eqb d "s")%bool then
            match args with
            | a :: args' => conv_s a ++ format rest' args'
            | [] => format rest' []
            end
          else String c (format rest args)
      | EmptyString => String c EmptyString
      end
  end.

Definition fprintf (to : stream) (fmt : string) (args : list cstr) : M unit :=
  fun s => (tt, emit (Fprintf to (format fmt args)) (os s) s).

Definition printf (fmt : string) (args : list cstr) : M unit :=
  fprintf Stdout fmt args.

End Process.

Arguments ret {P A} a.
Arguments bind {P A B} m k.
Arguments get_errno {P}.
Arguments open {P} path flags.
Arguments ioctl {P} fd request arg.
Arguments close {P} fd.
Arguments fprintf {P} to fmt args.
Arguments printf {P} fmt args.
Arguments os {P} p.
Arguments log {P} p.

Declare Scope proc_scope.
Delimit Scope proc_scope with proc.
Notation "x <- m ;; k" := (bind m (fun x => k))
  (at level 61, m at next level, right associativity) : proc_scope.
Notation "m ;; k" := (bind m (fun _ => k))
  (at level 61, right associativity) : proc_scope.

(** ** The program *)

(** [argv] holds the [argc] strings [argv[0]], ..., [argv[argc - 1]];
    [argv[argc]] is the null pointer, so [argv[0]] is null exactly when the
    list is empty.  Each [return] of the C function is the [ret] that ends
    its branch. *)
Definition main (P : Platform) (argv : list string) : M P Z :=
  (let argc := Z.of_nat (List.length argv) in
   if negb (argc =? 2) then
     fprintf Stderr ("Usage: %s <usb_device_path>" ++ LF) [nth_error argv 0] ;;
     ret 1
   else
     let device_path := nth 1 argv "" in
     fd <- open device_path (O_WRONLY P) ;;
     if fd <? 0 then
       e <- get_errno ;;
       fprintf Stderr ("Error opening device %s: %s" ++ LF)
         [Some device_path; Some (strerror P e)] ;;
       ret 1
     else
       result <- ioctl fd (USBDEVFS_RESET P) 0 ;;
       close fd ;;
       if result <? 0 then
         e <- get_errno ;;
         fprintf Stderr ("Error resetting device %s: %s" ++ LF)
           [Some device_path; Some (strerror P e)] ;;
         ret 1
       else
         printf ("USB device %s reset successfully" ++ LF) [Some device_path] ;;
         ret 0)%proc.

(** A run of the program from the world [w]: the exit status and the log. *)
Definition run (P : Platform) (w : world P) (argv : list string) : Z * trace :=
  let (status, s) := main P argv {| os := w; log := [] |} in (status, log s).

Definition exit_status (r : Z * trace) : Z := fst r.
Definition events (r : Z * trace) : trace := snd r.

(** ** Reading a trace *)

Definition stream_eqb (a b : stream) : bool :=
  match a, b with
  | Stdout, Stdout | Stderr, Stderr => true
  | _, _ => false
  end.

(** The texts written to one stream, one entry per [fprintf], in order. *)
Fixpoint output (to : stream) (t : trace) : list string :=
  match t with
  | [] => []
  | Fprintf s text :: t' =>
      if stream_eqb s to then text :: output to t' else output to t'
  | _ :: t' => output to t'
  end.

Definition is_syscall (ev : event) : bool :=
  match ev with
  | Fprintf _ _ => false
  | _ => true
  end.

(** The system calls of a run, in order. *)
Definition syscalls (t : trace) : trace := filter is_syscall t.

(** The path and flags of every [open]. *)
Fixpoint opens (t : trace) : list (string * Z) :=
  match t with
  | [] => []
  | SysOpen path flags _ _ :: t' => (path, flags) :: opens t'
  | _ :: t' => opens t'
  end.

(** The handle, request code and third argument of every [ioctl]. *)
Fixpoint ioctls (t : trace) : list (Z * Z * Z) :=
  match t with
  | [] => []
  | SysIoctl fd request arg _ _ :: t' => (fd, request, arg) :: ioctls t'
  | _ :: t' => ioctls t'
  end.

(** The handle of every [close]. *)
Fixpoint closes (t : trace) : list Z :=
  match t with
  | [] => []
  | SysClose fd _ _ :: t' => fd :: closes t'
  | _ :: t' => closes t'
  end.

(** The handles that [open] returned successfully. *)
Fixpoint handles (t : trace) : list Z :=
  match t with
  | [] => []
  | SysOpen _ _ fd _ :: t' => if 0 <=? fd then fd :: handles t' else handles t'
  | _ :: t' => handles t'
  end.

Definition open_succeeded (t : trace) : bool :=
  existsb (fun ev => match ev with SysOpen _ _ r _ => 0 <=? r | _ => false end) t.

Definition open_failed (t : trace) : bool :=
  existsb (fun ev => match ev with SysOpen _ _ r _ => r <? 0 | _ => false end) t.

Definition reset_succeeded (t : trace) : bool :=
  existsb (fun ev => match ev with SysIoctl _ _ _ r _ => 0 <=? r | _ => false end) t.

Definition reset_failed (t : trace) : bool :=
  existsb (fun ev => match ev with SysIoctl _ _ _ r _ => r <? 0 | _ => false end) t.

Definition close_failed (t : trace) : bool :=
  existsb (fun ev => match ev with SysClose _ r _ => r <? 0 | _ => false end) t.

(** ** The messages *)

Definition usage_line (command : string) : string :=
  "Usage: " ++ command ++ " <usb_device_path>" ++ LF.

Definition open_error_line (path description : string) : string :=
  "Error opening device " ++ path ++ ": " ++ description ++ LF.

Definition reset_error_line (path description : string) : string :=
  "Error resetting device " ++ path ++ ": " ++ description ++ LF.

Definition success_line (path : string) : string :=
  "USB device " ++ path ++ " reset successfully" ++ LF.

(** ** An example platform *)

(** What a scripted call does: succeed with a value and leave [errno]
    alone, or fail with [-1] and set [errno]. *)
Inductive answer : Type :=
| Ok (value : Z)
| Fail (code : Z).

Definition respond (a : answer) (e : Z) : Z * Z :=
  match a with
  | Ok v => (v, e)
  | Fail code => (-1, code)
  end.

Definition ENOENT : Z := 2.
Definition EIO : Z := 5.
Definition ENODEV : Z := 19.

Definition linux_strerror (e : Z) : string :=
  if e =? ENOENT then "No such file or directory"
  else if e =? EIO then "Input/output error"
  else if e =? ENODEV then "No such device"
  else "Unknown error".

(** A Linux-like platform whose world is the value of [errno]: the paths in
    [nodes] open as handle 3, every other path is missing; [ioctl] and
    [close] answer as scripted. *)
Definition scripted (nodes : list string) (reset closing : answer)
    (header : option Z) : Platform :=
  {| world := Z;
     errno := fun e => e;
     sys_open := fun path _ e =>
       respond (if existsb (String.eqb path) nodes then Ok 3 else Fail ENOENT) e;
     sys_ioctl := fun _ _ _ e => respond reset e;
     sys_close := fun _ e => respond closing e;
     strerror := linux_strerror;
     O_WRONLY := 1;
     header_USBDEVFS_RESET := header;
     null_text := "(null)" |}.

Definition usb2 : string := "/dev/bus/usb/001/002".
Definition usb999 : string := "/dev/bus/usb/999/999".

Definition healthy : Platform := scripted [usb2] (Ok 0) (Ok 0) None.
Definition unplugged : Platform := scripted [usb2] (Fail ENODEV) (Ok 0) None.
Definition unplugged_bad_close : Platform :=
  scripted [usb2] (Fail ENODEV) (Fail EIO) None.
Definition healthy_bad_close : Platform := scripted [usb2] (Ok 0) (Fail EIO) None.
Definition healthy_with_header : Platform :=
  scripted [usb2] (Ok 0) (Ok 0) (Some 536892692).

(** The platform [P] with the return value of [close] replaced by
    [status]; what [close] does to the world, [errno] included, is kept. *)
Definition with_close_status (P : Platform) (status : Z -> world P -> Z) :
    Platform :=
  {| world := world P;
     errno := errno P;
     sys_open := sys_open P;
     sys_ioctl := sys_ioctl P;
     sys_close := fun fd w => (status fd w, snd (sys_close P fd w));
     strerror := strerror P;
     O_WRONLY := O_WRONLY P;
     header_USBDEVFS_RESET := header_USBDEVFS_RESET P;
     null_text := null_text P |}.

(** The platform [P] with [close] replaced altogether: its return value
    and what it does to the world, [errno] included. *)
Definition with_close (P : Platform) (closing : Z -> world P -> Z * world P) :
    Platform :=
  {| world := world P;
     errno := errno P;
     sys_open := sys_open P;
     sys_ioctl := sys_ioctl P;
     sys_close := closing;
     strerror := strerror P;
     O_WRONLY := O_WRONLY P;
     header_USBDEVFS_RESET := header_USBDEVFS_RESET P;
     null_text := null_text P |}.

(** ** The headers of a platform *)

(** The header files of a platform that define the macro [USBDEVFS_RESET]:
    the name of each, and the value the macro has once that header, with
    everything it includes in turn, has been read.  The first entry is the
    platform's own definition of the constant. *)
Definition headers : Type := list (string * Z).

(** The six [#include] lines of the program, in order. *)
Definition included : list string :=
  ["stdio.h"; "fcntl.h"; "sys/ioctl.h"; "unistd.h"; "errno.h"; "string.h"].

(** The value the platform supplies for the constant, if it defines it. *)
Definition platform_constant (hs : headers) : option Z :=
  option_map snd (hd_error hs).

(** The definition in force when the [#ifndef] is reached: that of the
    first of the [files] read that has one. *)
Fixpoint visible (hs : headers) (files : list string) : option Z :=
  match files with
  | [] => None
  | f :: files' =>
      match find (fun d => String.eqb (fst d) f) hs with
      | Some d => Some (snd d)
      | None => visible hs files'
      end
  end.

(** The program compiled against the headers [hs] and run on [P]. *)
Definition built_with (hs : headers) (P : Platform) : Platform :=
  {| world := world P;
     errno := errno P;
     sys_open := sys_open P;
     sys_ioctl := sys_ioctl P;
     sys_close := sys_close P;
     strerror := strerror P;
     O_WRONLY := O_WRONLY P;
     header_USBDEVFS_RESET := visible hs included;
     null_text := null_text P |}.

(** Linux defines the constant in [<linux/usbdevice_fs.h>] alone, as
    [_IO('U', 20)]: the direction [_IOC_NONE] shifted to its field, the
    type character at bit 8 and the number at bit 0.  [_IOC_NONE] is 0 with
    the direction at bit 30 on x86 and ARM, and 1 with the direction at
    bit 29 on MIPS, PowerPC, SPARC and Alpha. *)
Definition linux_IO (ioc_none dirshift type nr : Z) : Z :=
  Z.lor (Z.shiftl ioc_none dirshift) (Z.lor (Z.shiftl type 8) nr).

Definition linux_headers (ioc_none dirshift : Z) : headers :=
  [("linux/usbdevice_fs.h", linux_IO ioc_none dirshift 85 20)].

Definition linux_x86_headers : headers := linux_headers 0 30.
Definition linux_mips_headers : headers := linux_headers 1 29.

(** ** The four ways a run can go *)

(** Every run has one of four shapes, one per [return] of [main].  The
    description printed after a failed [open] belongs to the value of
    [errno] at the return of [open]; the one printed after a failed reset
    belongs to the value of [errno] at the return of [close]. *)
Inductive outcome (P : Platform) (argv : list string) : Z * trace -> Prop :=
| BadUsage :
    Z.of_nat (List.length argv) <> 2 ->
    outcome P argv
      (1, [Fprintf Stderr (usage_line (conv_s P (nth_error argv 0)))])
| OpenError prog path fd e :
    argv = [prog; path] -> fd < 0 ->
    outcome P argv
      (1, [SysOpen path (O_WRONLY P) fd e;
           Fprintf Stderr (open_error_line path (strerror P e))])
| ResetError prog path fd e0 res e1 c e2 :
    argv = [prog; path] -> 0 <= fd -> res < 0 ->
    outcome P argv
      (1, [SysOpen path (O_WRONLY P) fd e0;
           SysIoctl fd (USBDEVFS_RESET P) 0 res e1;
           SysClose fd c e2;
           Fprintf Stderr (reset_error_line path (strerror P e2))])
| ResetDone prog path fd e0 res e1 c e2 :
    argv = [prog; path] -> 0 <= fd -> 0 <= res ->
    outcome P argv
      (0, [SysOpen path (O_WRONLY P) fd e0;
           SysIoctl fd (USBDEVFS_RESET P) 0 res e1;
           SysClose fd c e2;
           Fprintf Stdout (success_line path)]).

(** ** Runs of the example platforms *)

Example run_healthy :
  run healthy 0 ["usbreset"; usb2]
  = (0, [SysOpen usb2 1 3 0; SysIoctl 3 21780 0 0 0; SysClose 3 0 0;
         Fprintf Stdout (success_line usb2)]).
Proof. reflexivity. Qed.

Example run_missing :
  run healthy 0 ["usbreset"; usb999]
  = (1, [SysOpen usb999 1 (-1) 2;
         Fprintf Stderr (open_error_line usb999 "No such file or directory")]).
Proof. reflexivity. Qed.

Example run_unplugged :
  run unplugged 0 ["usbreset"; usb2]
  = (1, [SysOpen usb2 1 3 0; SysIoctl 3 21780 0 (-1) 19; SysClose 3 0 19;
         Fprintf Stderr (reset_error_line usb2 "No such device")]).
Proof. reflexivity. Qed.

Example run_no_argument :
  run healthy 0 ["usbreset"] = (1, [Fprintf Stderr (usage_line "usbreset")]).
Proof. reflexivity. Qed.

Example run_empty_argv :
  run healthy 0 [] = (1, [Fprintf Stderr (usage_line "(null)")]).
Proof. reflexivity. Qed.

(** ** The shape of a run *)

Lemma argc_two (argv : list string) :
  Z.of_nat (List.length argv) = 2 -> exists prog path, argv = [prog; path].
Proof.
  destruct argv as [|prog [|path [|extra rest]]]; cbn [List.length]; intros H;
    try lia.
  now exists prog, path.
Qed.

(** The run, written out over the answers of the platform. *)
Lemma run_usage (P : Platform) (w : world P) (argv : list string) :
  Z.of_nat (List.length argv) <> 2 ->
  run P w argv
  = (1, [Fprintf Stderr (usage_line (conv_s P (nth_error argv 0)))]).
Proof.
  intros Hargc. unfold run, main.
  destruct (Z.eqb_spec (Z.of_nat (List.length argv)) 2) as [Heq|_];
    [contradiction|reflexivity].
Qed.

Lemma run_one_argument (P : Platform) (w : world P) (prog path : string) :
  run P w [prog; path]
  = let (fd, w1) := sys_open P path (O_WRONLY P) w in
    if fd <? 0 then
      (1, [SysOpen path (O_WRONLY P) fd (errno P w1);
           Fprintf Stderr (open_error_line path (strerror P (errno P w1)))])
    else
      let (res, w2) := sys_ioctl P fd (USBDEVFS_RESET P) 0 w1 in
      let (c, w3) := sys_close P fd w2 in
      if res <? 0 then
        (1, [SysOpen path (O_WRONLY P) fd (errno P w1);
             SysIoctl fd (USBDEVFS_RESET P) 0 res (errno P w2);
             SysClose fd c (errno P w3);
             Fprintf Stderr (reset_error_line path (strerror P (errno P w3)))])
      else
        (0, [SysOpen path (O_WRONLY P) fd (errno P w1);
             SysIoctl fd (USBDEVFS_RESET P) 0 res (errno P w2);
             SysClose fd c (errno P w3);
             Fprintf Stdout (success_line path)]).
Proof.
  unfold run, main. cbn [List.length Z.of_nat Pos.of_succ_nat Pos.succ Z.eqb Pos.eqb negb nth].
  unfold bind, open, ioctl, close, get_errno, printf, fprintf, ret.
  cbn [os log emit].
  destruct (sys_open P path (O_WRONLY P) w) as [fd w1].
  destruct (fd <? 0); cbn [os log emit app]; [reflexivity|].
  destruct (sys_ioctl P fd (USBDEVFS_RESET P) 0 w1) as [res w2].
  cbn [os log emit app].
  destruct (sys_close P fd w2) as [c w3].
  destruct (res <? 0); reflexivity.
Qed.

Lemma run_outcome (P : Platform) (w : world P) (argv : list string) :
  outcome P argv (run P w argv).
Proof.
  destruct (Z.eq_dec (Z.of_nat (List.length argv)) 2) as [Hargc|Hargc].
  - destruct (argc_two argv Hargc) as (prog & path & ->).
    rewrite run_one_argument.
    destruct (sys_open P path (O_WRONLY P) w) as [fd w1].
    destruct (Z.ltb_spec fd 0) as [Hfd|Hfd].
    + now apply OpenError with (prog := prog).
    + destruct (sys_ioctl P fd (USBDEVFS_RESET P) 0 w1) as [res w2].
      destruct (sys_close P fd w2) as [c w3].
      destruct (Z.ltb_spec res 0) as [Hres|Hres].
      * now apply ResetError with (prog := prog).
      * now apply ResetDone with (prog := prog).
  - rewrite run_usage by assumption. now apply BadUsage.
Qed.

(** Decide the sign tests that reading a trace leaves behind. *)
Ltac sign_tests :=
  repeat match goal with
    | |- context [0 <=? ?x] =>
        destruct (Z.leb_spec 0 x); try lia
    | |- context [?x <? 0] =>
        destruct (Z.ltb_spec x 0); try lia
    | H : context [0 <=? ?x] |- _ =>
        destruct (Z.leb_spec 0 x); try lia
    | H : context [?x <? 0] |- _ =>
        destruct (Z.ltb_spec x 0); try lia
    end.

(** Replace a run by its shape and read the trace. *)
Ltac by_outcome P w argv :=
  let Hrun := fresh "Hrun" in
  pose proof (run_outcome P w argv) as Hrun;
  destruct Hrun;
  unfold exit_status, events, open_succeeded, open_failed, reset_succeeded,
    reset_failed, close_failed in *;
  cbn [fst snd existsb orb output opens ioctls closes handles stream_eqb
       syscalls filter is_syscall] in *;
  sign_tests;
  try discriminate.

(** ** Properties of the program *)

(** C1.  When the path opens and the reset request succeeds, the exit
    status is 0, standard output receives exactly one message, the text
    [USB device <path> reset successfully] closed by a line feed, and the
    error stream receives nothing. *)
Theorem success_path (P : Platform) (w : world P) (prog path : string) :
  let r := run P w [prog; path] in
  open_succeeded (events r) = true ->
  reset_succeeded (events r) = true ->
  exit_status r = 0
  /\ output Stdout (events r)
     = ["USB device " ++ path ++ " reset successfully" ++ LF]
  /\ output Stderr (events r) = [].
Proof.
  intros r Hopen Hreset; subst r.
  by_outcome P w [prog; path].
  match goal with H : [_; _] = [_; _] |- _ => injection H as -> -> end.
  repeat split; reflexivity.
Qed.

Lemma success_path_witness :
  open_succeeded (events (run healthy 0 ["usbreset"; usb2])) = true
  /\ reset_succeeded (events (run healthy 0 ["usbreset"; usb2])) = true
  /\ exit_status (run healthy 0 ["usbreset"; usb2]) = 0
  /\ output Stdout (events (run healthy 0 ["usbreset"; usb2]))
     = ["USB device /dev/bus/usb/001/002 reset successfully" ++ LF]
  /\ output Stderr (events (run healthy 0 ["usbreset"; usb2])) = [].
Proof.
  split; [reflexivity|]. split; [reflexivity|].
  apply (success_path healthy 0 "usbreset" usb2); reflexivity.
Defined.

(** C2.  With a number of arguments after the command name other than one,
    the run consists of a single message on the error stream, the usage
    line naming the command and [<usb_device_path>]; the exit status is 1
    and there is no [open], no [ioctl], no system call at all. *)
Theorem wrong_argument_count (P : Platform) (w : world P) (prog : string)
    (args : list string) :
  List.length args <> 1%nat ->
  let r := run P w (prog :: args) in
  exit_status r = 1
  /\ events r = [Fprintf Stderr ("Usage: " ++ prog ++ " <usb_device_path>" ++ LF)]
  /\ output Stdout (events r) = []
  /\ opens (events r) = []
  /\ ioctls (events r) = []
  /\ syscalls (events r) = [].
Proof.
  intros Hargs r; subst r.
  pose proof (run_outcome P w (prog :: args)) as Hrun.
  destruct Hrun as [Hargc|? ? ? ? Hargv|? ? ? ? ? ? ? ? Hargv|? ? ? ? ? ? ? ? Hargv];
    try (injection Hargv as _ ->; now contradiction Hargs).
  repeat split; reflexivity.
Qed.

Lemma wrong_argument_count_witness :
  (List.length (@nil string) <> 1%nat
   /\ events (run healthy 0 ["usbreset"])
      = [Fprintf Stderr ("Usage: usbreset <usb_device_path>" ++ LF)])
  /\ (List.length [usb2; usb999] <> 1%nat
      /\ exit_status (run healthy 0 ["usbreset"; usb2; usb999]) = 1).
Proof.
  split; (split; [discriminate|]).
  - apply (wrong_argument_count healthy 0 "usbreset" []); discriminate.
  - apply (wrong_argument_count healthy 0 "usbreset" [usb2; usb999]); discriminate.
Defined.

(** The usage branch also covers an empty [argv]: there is no command name
    to print, and the [%s] conversion receives a null pointer. *)
Lemma empty_argv (P : Platform) (w : world P) :
  run P w [] = (1, [Fprintf Stderr (usage_line (null_text P))]).
Proof. reflexivity. Qed.

(** C3.  With one argument whose [open] fails, the run is that [open]
    followed by one message on the error stream, made of the path and the
    description of the value [errno] had when [open] returned; the exit
    status is 1 and no [ioctl] is issued. *)
Theorem open_failure (P : Platform) (w : world P) (prog path : string) :
  let r := run P w [prog; path] in
  open_failed (events r) = true ->
  exists fd e,
    events r
    = [SysOpen path (O_WRONLY P) fd e;
       Fprintf Stderr
         ("Error opening device " ++ path ++ ": " ++ strerror P e ++ LF)]
    /\ fd < 0
    /\ exit_status r = 1
    /\ output Stdout (events r) = []
    /\ ioctls (events r) = [].
Proof.
  intros r Hfail; subst r.
  by_outcome P w [prog; path].
  match goal with H : [_; _] = [_; _] |- _ => injection H as -> -> end.
  exists fd, e. repeat split; try reflexivity; assumption.
Qed.

Lemma open_failure_witness :
  open_failed (events (run healthy 0 ["usbreset"; usb999])) = true
  /\ exists fd e,
       events (run healthy 0 ["usbreset"; usb999])
       = [SysOpen usb999 1 fd e;
          Fprintf Stderr
            ("Error opening device " ++ usb999 ++ ": " ++ linux_strerror e ++ LF)]
       /\ fd < 0
       /\ exit_status (run healthy 0 ["usbreset"; usb999]) = 1
       /\ output Stdout (events (run healthy 0 ["usbreset"; usb999])) = []
       /\ ioctls (events (run healthy 0 ["usbreset"; usb999])) = [].
Proof.
  split; [reflexivity|].
  apply (open_failure healthy 0 "usbreset" usb999); reflexivity.
Defined.

(** C4.  Whenever [open] succeeds, the handle it returned is closed exactly
    once, whether the reset request then succeeds or fails, and nothing
    else is closed. *)
Theorem handle_closed_once (P : Platform) (w : world P) (argv : list string) :
  let r := run P w argv in
  open_succeeded (events r) = true ->
  exists fd,
    handles (events r) = [fd]
    /\ closes (events r) = [fd]
    /\ count_occ Z.eq_dec (closes (events r)) fd = 1%nat
    /\ (reset_succeeded (events r) = true \/ reset_failed (events r) = true).
Proof.
  intros r Hopen; subst r.
  by_outcome P w argv; exists fd; cbn [count_occ];
    (destruct (Z.eq_dec fd fd); [|contradiction]);
    repeat split; auto.
Qed.

Lemma handle_closed_once_witness :
  (open_succeeded (events (run healthy 0 ["usbreset"; usb2])) = true
   /\ exists fd,
        handles (events (run healthy 0 ["usbreset"; usb2])) = [fd]
        /\ closes (events (run healthy 0 ["usbreset"; usb2])) = [fd]
        /\ count_occ Z.eq_dec (closes (events (run healthy 0 ["usbreset"; usb2]))) fd
           = 1%nat
        /\ (reset_succeeded (events (run healthy 0 ["usbreset"; usb2])) = true
            \/ reset_failed (events (run healthy 0 ["usbreset"; usb2])) = true))
  /\ (open_succeeded (events (run unplugged 0 ["usbreset"; usb2])) = true
      /\ exists fd,
           handles (events (run unplugged 0 ["usbreset"; usb2])) = [fd]
           /\ closes (events (run unplugged 0 ["usbreset"; usb2])) = [fd]
           /\ count_occ Z.eq_dec (closes (events (run unplugged 0 ["usbreset"; usb2]))) fd
              = 1%nat
           /\ (reset_succeeded (events (run unplugged 0 ["usbreset"; usb2])) = true
               \/ reset_failed (events (run unplugged 0 ["usbreset"; usb2])) = true)).
Proof.
  split; (split; [reflexivity|]).
  - apply (handle_closed_once healthy 0 ["usbreset"; usb2]); reflexivity.
  - apply (handle_closed_once unplugged 0 ["usbreset"; usb2]); reflexivity.
Defined.

(** Without a successful [open] there is no handle and nothing is closed. *)
Lemma no_handle_no_close (P : Platform) (w : world P) (argv : list string) :
  open_succeeded (events (run P w argv)) = false ->
  handles (events (run P w argv)) = [] /\ closes (events (run P w argv)) = [].
Proof.
  intros Hopen. by_outcome P w argv; split; reflexivity.
Qed.

(** X5.  What holds on every run whose reset request fails: exit status 1, one
    message on the error stream with the path, nothing on standard output,
    the handle closed.  The description in the message is that of the value
    of [errno] at the return of [close]; it describes the failed request
    when [close] left [errno] as the request had set it. *)
Lemma reset_failure (P : Platform) (w : world P) (prog path : string) :
  let r := run P w [prog; path] in
  reset_failed (events r) = true ->
  exists fd e0 res e1 c e2,
    syscalls (events r)
    = [SysOpen path (O_WRONLY P) fd e0;
       SysIoctl fd (USBDEVFS_RESET P) 0 res e1;
       SysClose fd c e2]
    /\ res < 0
    /\ exit_status r = 1
    /\ output Stderr (events r) = [reset_error_line path (strerror P e2)]
    /\ output Stdout (events r) = []
    /\ closes (events r) = [fd]
    /\ (e2 = e1 ->
        output Stderr (events r) = [reset_error_line path (strerror P e1)]).
Proof.
  intros r Hfail; subst r.
  by_outcome P w [prog; path].
  match goal with H : [_; _] = [_; _] |- _ => injection H as -> -> end.
  exists fd, e0, res, e1, c, e2.
  repeat split; try reflexivity; try assumption.
  now intros ->.
Qed.

(** C5, at a run that breaks it.  The device node opens, the reset request
    fails with [ENODEV], and [close] then fails with [EIO].  The exit status
    is 1 and the handle is closed, but the line on the error stream
    describes [EIO], the error of [close], and not [ENODEV], the error of
    the failed reset request. *)
Theorem reset_description_lost :
  let r := run unplugged_bad_close 0 ["usbreset"; usb2] in
  events r
  = [SysOpen usb2 1 3 0;
     SysIoctl 3 21780 0 (-1) ENODEV;
     SysClose 3 (-1) EIO;
     Fprintf Stderr
       ("Error resetting device " ++ usb2 ++ ": " ++ "Input/output error" ++ LF)]
  /\ exit_status r = 1
  /\ linux_strerror ENODEV = "No such device"
  /\ output Stderr (events r)
     <> ["Error resetting device " ++ usb2 ++ ": " ++ linux_strerror ENODEV ++ LF].
Proof.
  cbv zeta. repeat (split; [vm_compute; reflexivity|]).
  intros H. vm_compute in H. discriminate H.
Qed.

(** C6.  The exit status is 0 exactly when the argument count is right,
    [open] succeeded and the reset request succeeded; it is 1 exactly when
    one of the three failures happened: wrong argument count, failed
    [open], failed reset request.  No other status occurs. *)
Theorem exit_status_two_valued (P : Platform) (w : world P)
    (argv : list string) :
  let r := run P w argv in
  (exit_status r = 0
   <-> Z.of_nat (List.length argv) = 2
       /\ open_succeeded (events r) = true
       /\ reset_succeeded (events r) = true)
  /\ (exit_status r = 1
      <-> Z.of_nat (List.length argv) <> 2
          \/ open_failed (events r) = true
          \/ reset_failed (events r) = true)
  /\ (exit_status r = 0 \/ exit_status r = 1).
Proof.
  intros r; subst r.
  by_outcome P w argv; subst; cbn [List.length];
    repeat split; intros; auto; try lia; try discriminate;
    repeat match goal with
      | H : _ /\ _ |- _ => destruct H
      | H : _ \/ _ |- _ => destruct H
      end; try lia; try discriminate.
Qed.

(** X9.  Once [open] has succeeded there is exactly one [ioctl], on the
    handle [open] returned, with third argument 0.  Its request code is the
    value that the six included headers give the macro [USBDEVFS_RESET]
    when one of them defines it, and 21780 when none of them does. *)
Theorem reset_request (P : Platform) (w : world P) (argv : list string) :
  let r := run P w argv in
  open_succeeded (events r) = true ->
  exists fd request,
    handles (events r) = [fd]
    /\ ioctls (events r) = [(fd, request, 0)]
    /\ (forall code, header_USBDEVFS_RESET P = Some code -> request = code)
    /\ (header_USBDEVFS_RESET P = None -> request = 21780)
    /\ (request = 21780 ->
        header_USBDEVFS_RESET P = None
        \/ header_USBDEVFS_RESET P = Some 21780).
Proof.
  intros r Hopen; subst r.
  by_outcome P w argv; exists fd, (USBDEVFS_RESET P); unfold USBDEVFS_RESET;
    (repeat split; try reflexivity);
    destruct (header_USBDEVFS_RESET P) as [code|];
    intros; subst; try congruence; auto.
Qed.

Lemma reset_request_witness :
  (open_succeeded (events (run healthy 0 ["usbreset"; usb2])) = true
   /\ exists fd request,
        handles (events (run healthy 0 ["usbreset"; usb2])) = [fd]
        /\ ioctls (events (run healthy 0 ["usbreset"; usb2])) = [(fd, request, 0)]
        /\ (forall code, @None Z = Some code -> request = code)
        /\ (@None Z = None -> request = 21780)
        /\ (request = 21780 -> @None Z = None \/ @None Z = Some 21780))
  /\ (open_succeeded (events (run healthy_with_header 0 ["usbreset"; usb2])) = true
      /\ exists fd request,
           handles (events (run healthy_with_header 0 ["usbreset"; usb2])) = [fd]
           /\ ioctls (events (run healthy_with_header 0 ["usbreset"; usb2]))
              = [(fd, request, 0)]
           /\ (forall code, Some 536892692 = Some code -> request = code)
           /\ (Some 536892692 = None -> request = 21780)
           /\ (request = 21780 ->
               Some 536892692 = None \/ Some 536892692 = Some 21780)).
Proof.
  split; (split; [reflexivity|]).
  - apply (reset_request healthy 0 ["usbreset"; usb2]); reflexivity.
  - apply (reset_request healthy_with_header 0 ["usbreset"; usb2]); reflexivity.
Defined.

(** C8.  With exactly one argument there is exactly one [open]: of that
    argument, with the flags word [O_WRONLY] and nothing else in it. *)
Theorem opened_write_only (P : Platform) (w : world P) (prog path : string) :
  opens (events (run P w [prog; path])) = [(path, O_WRONLY P)].
Proof.
  by_outcome P w [prog; path];
    try match goal with H : [_; _] = [_; _] |- _ => injection H as -> -> end;
    try reflexivity.
  cbn [List.length] in *. lia.
Qed.

(** C9.  Once [open] has succeeded the run is: the [open], the reset
    [ioctl], the [close] of the same handle, and only then the one message
    that reports the result.  After a failed request the message carries
    the description of [e2], the value of [errno] when [close] returned,
    whatever [e1], the value when the request returned, was. *)
Theorem close_precedes_report (P : Platform) (w : world P)
    (prog path : string) :
  let r := run P w [prog; path] in
  open_succeeded (events r) = true ->
  exists fd e0 res e1 c e2 report,
    events r
    = [SysOpen path (O_WRONLY P) fd e0;
       SysIoctl fd (USBDEVFS_RESET P) 0 res e1;
       SysClose fd c e2;
       report]
    /\ (res < 0 ->
        report
        = Fprintf Stderr
            ("Error resetting device " ++ path ++ ": " ++ strerror P e2 ++ LF))
    /\ (0 <= res ->
        report
        = Fprintf Stdout ("USB device " ++ path ++ " reset successfully" ++ LF)).
Proof.
  intros r Hopen; subst r.
  by_outcome P w [prog; path];
    match goal with H : [_; _] = [_; _] |- _ => injection H as -> -> end;
    eexists fd, e0, res, e1, c, e2, _;
    (split; [reflexivity|]); split; intros; try lia; reflexivity.
Qed.

Lemma close_precedes_report_witness :
  open_succeeded (events (run unplugged_bad_close 0 ["usbreset"; usb2])) = true
  /\ exists fd e0 res e1 c e2 report,
       events (run unplugged_bad_close 0 ["usbreset"; usb2])
       = [SysOpen usb2 1 fd e0;
          SysIoctl fd 21780 0 res e1;
          SysClose fd c e2;
          report]
       /\ (res < 0 ->
           report
           = Fprintf Stderr
               ("Error resetting device " ++ usb2 ++ ": " ++ linux_strerror e2 ++ LF))
       /\ (0 <= res ->
           report
           = Fprintf Stdout ("USB device " ++ usb2 ++ " reset successfully" ++ LF)).
Proof.
  split; [reflexivity|].
  apply (close_precedes_report unplugged_bad_close 0 "usbreset" usb2); reflexivity.
Defined.

(** ** The close call *)

(** X6.  The return value of [close] is discarded: replacing it changes
    neither the exit status nor anything written to either stream. *)
Lemma close_status_ignored (P : Platform) (status : Z -> world P -> Z)
    (w : world P) (argv : list string) :
  let r := run P w argv in
  let r' := run (with_close_status P status) w argv in
  exit_status r' = exit_status r
  /\ output Stdout (events r') = output Stdout (events r)
  /\ output Stderr (events r') = output Stderr (events r).
Proof.
  cbv zeta.
  destruct (Z.eq_dec (Z.of_nat (List.length argv)) 2) as [Hargc|Hargc].
  - destruct (argc_two argv Hargc) as (prog & path & ->).
    rewrite (run_one_argument P), (run_one_argument (with_close_status P status)).
    change (USBDEVFS_RESET (with_close_status P status)) with (USBDEVFS_RESET P).
    change (O_WRONLY (with_close_status P status)) with (O_WRONLY P).
    change (sys_open (with_close_status P status)) with (sys_open P).
    change (sys_ioctl (with_close_status P status)) with (sys_ioctl P).
    change (errno (with_close_status P status)) with (errno P).
    change (strerror (with_close_status P status)) with (strerror P).
    destruct (sys_open P path (O_WRONLY P) w) as [fd w1].
    destruct (fd <? 0); [repeat split; reflexivity|].
    destruct (sys_ioctl P fd (USBDEVFS_RESET P) 0 w1) as [res w2].
    cbn [with_close_status sys_close].
    destruct (sys_close P fd w2) as [c w3].
    cbn [snd].
    destruct (res <? 0); repeat split; reflexivity.
  - rewrite (run_usage P), (run_usage (with_close_status P status)) by assumption.
    repeat split; reflexivity.
Qed.

(** X7.  A failing [close] after a successful reset: the exit status is
    still 0 and the only message is the confirmation. *)
Lemma failing_close_after_reset (P : Platform) (w : world P)
    (prog path : string) :
  let r := run P w [prog; path] in
  reset_succeeded (events r) = true ->
  close_failed (events r) = true ->
  exit_status r = 0
  /\ output Stdout (events r) = [success_line path]
  /\ output Stderr (events r) = [].
Proof.
  intros r Hreset Hclose; subst r.
  by_outcome P w [prog; path].
  match goal with H : [_; _] = [_; _] |- _ => injection H as -> -> end.
  repeat split; reflexivity.
Qed.

Example healthy_bad_close_run :
  run healthy_bad_close 0 ["usbreset"; usb2]
  = (0, [SysOpen usb2 1 3 0; SysIoctl 3 21780 0 0 0; SysClose 3 (-1) EIO;
         Fprintf Stdout (success_line usb2)]).
Proof. reflexivity. Qed.

(** C10, at a pair of runs that breaks it.  Both runs get the same
    arguments, the same result of [open] and the same result of the reset
    request ([-1] with [ENODEV]); they differ in [close] alone, which
    succeeds in the first and fails with [EIO] in the second.  The exit
    status is 1 in both, but the error stream differs: the outcome of
    [close] reaches the output through [errno]. *)
Theorem failing_close_changes_report :
  let r1 := run unplugged 0 ["usbreset"; usb2] in
  let r2 := run unplugged_bad_close 0 ["usbreset"; usb2] in
  firstn 2 (events r1) = firstn 2 (events r2)
  /\ firstn 2 (events r1) = [SysOpen usb2 1 3 0; SysIoctl 3 21780 0 (-1) ENODEV]
  /\ closes (events r1) = closes (events r2)
  /\ close_failed (events r1) = false
  /\ close_failed (events r2) = true
  /\ exit_status r1 = 1
  /\ exit_status r2 = 1
  /\ output Stderr (events r1) = [reset_error_line usb2 "No such device"]
  /\ output Stderr (events r2) = [reset_error_line usb2 "Input/output error"]
  /\ output Stderr (events r1) <> output Stderr (events r2).
Proof.
  cbv zeta. repeat (split; [vm_compute; reflexivity|]).
  intros H. vm_compute in H. discriminate H.
Qed.

Lemma failing_close_after_reset_witness :
  reset_succeeded (events (run healthy_bad_close 0 ["usbreset"; usb2])) = true
  /\ close_failed (events (run healthy_bad_close 0 ["usbreset"; usb2])) = true
  /\ exit_status (run healthy_bad_close 0 ["usbreset"; usb2]) = 0
  /\ output Stdout (events (run healthy_bad_close 0 ["usbreset"; usb2]))
     = [success_line usb2]
  /\ output Stderr (events (run healthy_bad_close 0 ["usbreset"; usb2])) = [].
Proof.
  split; [reflexivity|]. split; [reflexivity|].
  apply (failing_close_after_reset healthy_bad_close 0 "usbreset" usb2);
    reflexivity.
Defined.

Lemma reset_failure_witness :
  reset_failed (events (run unplugged 0 ["usbreset"; usb2])) = true
  /\ exists fd e0 res e1 c e2,
       syscalls (events (run unplugged 0 ["usbreset"; usb2]))
       = [SysOpen usb2 1 fd e0; SysIoctl fd 21780 0 res e1; SysClose fd c e2]
       /\ res < 0
       /\ exit_status (run unplugged 0 ["usbreset"; usb2]) = 1
       /\ output Stderr (events (run unplugged 0 ["usbreset"; usb2]))
          = [reset_error_line usb2 (linux_strerror e2)]
       /\ output Stdout (events (run unplugged 0 ["usbreset"; usb2])) = []
       /\ closes (events (run unplugged 0 ["usbreset"; usb2])) = [fd]
       /\ (e2 = e1 ->
           output Stderr (events (run unplugged 0 ["usbreset"; usb2]))
           = [reset_error_line usb2 (linux_strerror e1)]).
Proof.
  split; [reflexivity|].
  apply (reset_failure unplugged 0 "usbreset" usb2); reflexivity.
Defined.

(** ** Every run *)

Lemma append_assoc_str (a b c : string) : (a ++ b) ++ c = a ++ (b ++ c).
Proof.
  induction a as [|ch a IH]; cbn [append]; [reflexivity|now rewrite IH].
Qed.

Lemma usage_line_ends (command : string) :
  usage_line command = ("Usage: " ++ command ++ " <usb_device_path>") ++ LF.
Proof. unfold usage_line. now rewrite !append_assoc_str. Qed.

Lemma open_error_line_ends (path description : string) :
  open_error_line path description
  = ("Error opening device " ++ path ++ ": " ++ description) ++ LF.
Proof. unfold open_error_line. now rewrite !append_assoc_str. Qed.

Lemma reset_error_line_ends (path description : string) :
  reset_error_line path description
  = ("Error resetting device " ++ path ++ ": " ++ description) ++ LF.
Proof. unfold reset_error_line. now rewrite !append_assoc_str. Qed.

Lemma success_line_ends (path : string) :
  success_line path = ("USB device " ++ path ++ " reset successfully") ++ LF.
Proof. unfold success_line. now rewrite !append_assoc_str. Qed.

(** X1.  Every run, whatever the arguments and the platform, writes exactly
    one message, as its last action and ending in a line feed: to standard
    output when the exit status is 0, to the error stream when it is 1. *)
Theorem one_message_per_run (P : Platform) (w : world P) (argv : list string) :
  let r := run P w argv in
  exists to body,
    events r = (syscalls (events r) ++ [Fprintf to (body ++ LF)])%list
    /\ (to = Stdout <-> exit_status r = 0)
    /\ (to = Stderr <-> exit_status r = 1)
    /\ (List.length (output Stdout (events r))
        + List.length (output Stderr (events r)) = 1)%nat.
Proof.
  intros r; subst r.
  pose proof (run_outcome P w argv) as Hrun.
  destruct Hrun;
    unfold exit_status, events;
    cbn [fst snd syscalls filter is_syscall app output stream_eqb List.length
         Nat.add].
  - exists Stderr. eexists. rewrite usage_line_ends.
    repeat split; try reflexivity; intros; discriminate.
  - exists Stderr. eexists. rewrite open_error_line_ends.
    repeat split; try reflexivity; intros; discriminate.
  - exists Stderr. eexists. rewrite reset_error_line_ends.
    repeat split; try reflexivity; intros; discriminate.
  - exists Stdout. eexists. rewrite success_line_ends.
    repeat split; try reflexivity; intros; discriminate.
Qed.

(** X2.  In every run the handles that are closed are exactly the handles
    that [open] returned successfully, in the same order, and there is at
    most one: no handle is left open, none is closed twice, and [close] is
    never called on the result of a failed [open]. *)
Theorem closes_only_what_it_opened (P : Platform) (w : world P)
    (argv : list string) :
  let r := run P w argv in
  closes (events r) = handles (events r)
  /\ (List.length (handles (events r)) <= 1)%nat.
Proof.
  intros r; subst r.
  by_outcome P w argv; cbn [List.length]; split; auto.
Qed.

(** X3.  In every run the [ioctl] calls are exactly one reset request, with
    third argument 0, per handle that [open] returned successfully: no
    request is issued without an open handle, and none on any other
    descriptor. *)
Theorem reset_only_on_open_handle (P : Platform) (w : world P)
    (argv : list string) :
  let r := run P w argv in
  ioctls (events r)
  = map (fun fd => (fd, USBDEVFS_RESET P, 0)) (handles (events r)).
Proof.
  intros r; subst r.
  by_outcome P w argv; reflexivity.
Qed.

(** X4.  Nothing is retried: a run makes at most one [open], one [ioctl]
    and one [close], and an [open] is made exactly when there is exactly
    one argument after the command name. *)
Theorem single_attempt (P : Platform) (w : world P) (argv : list string) :
  let r := run P w argv in
  (List.length (ioctls (events r)) <= 1)%nat
  /\ (List.length (closes (events r)) <= 1)%nat
  /\ List.length (opens (events r))
     = if Z.of_nat (List.length argv) =? 2 then 1%nat else 0%nat.
Proof.
  intros r; subst r.
  by_outcome P w argv; subst; cbn [List.length]; repeat split; auto.
  destruct (Z.eqb_spec (Z.of_nat (List.length argv)) 2); [contradiction|reflexivity].
Qed.

(** X8.  Whatever [close] does, to its return value and to the world, it
    cannot change the exit status, the standard output, or the [open],
    [ioctl] and [close] calls that are made; the error stream can change
    only on a run whose reset request failed. *)
Theorem close_cannot_change_status (P : Platform)
    (closing : Z -> world P -> Z * world P) (w : world P)
    (argv : list string) :
  let r := run P w argv in
  let r' := run (with_close P closing) w argv in
  exit_status r' = exit_status r
  /\ output Stdout (events r') = output Stdout (events r)
  /\ opens (events r') = opens (events r)
  /\ ioctls (events r') = ioctls (events r)
  /\ closes (events r') = closes (events r)
  /\ (reset_failed (events r) = false ->
      output Stderr (events r') = output Stderr (events r)).
Proof.
  cbv zeta.
  destruct (Z.eq_dec (Z.of_nat (List.length argv)) 2) as [Hargc|Hargc].
  - destruct (argc_two argv Hargc) as (prog & path & ->).
    rewrite (run_one_argument P), (run_one_argument (with_close P closing)).
    change (USBDEVFS_RESET (with_close P closing)) with (USBDEVFS_RESET P).
    change (O_WRONLY (with_close P closing)) with (O_WRONLY P).
    change (sys_open (with_close P closing)) with (sys_open P).
    change (sys_ioctl (with_close P closing)) with (sys_ioctl P).
    change (sys_close (with_close P closing)) with closing.
    change (errno (with_close P closing)) with (errno P).
    change (strerror (with_close P closing)) with (strerror P).
    destruct (sys_open P path (O_WRONLY P) w) as [fd w1].
    destruct (fd <? 0); [repeat split; reflexivity|].
    destruct (sys_ioctl P fd (USBDEVFS_RESET P) 0 w1) as [res w2].
    destruct (closing fd w2) as [c' w3'].
    destruct (sys_close P fd w2) as [c w3].
    destruct (res <? 0) eqn:Hres;
      unfold exit_status, events, reset_failed;
      cbn [fst snd output opens ioctls closes stream_eqb existsb orb];
      rewrite ?Hres; repeat split; try reflexivity; intros; discriminate.
  - rewrite (run_usage P), (run_usage (with_close P closing)) by assumption.
    repeat split; reflexivity.
Qed.

(** ** The request code and the platform's constant *)

Example linux_constants :
  platform_constant linux_x86_headers = Some 21780
  /\ platform_constant linux_mips_headers = Some 536892692.
Proof. split; reflexivity. Qed.

Example included_header_run :
  ioctls (events (run healthy_with_header 0 ["usbreset"; usb2]))
  = [(3, 536892692, 0)].
Proof. reflexivity. Qed.

(** A header that is not among the six [#include] lines never reaches the
    [#ifndef]: whatever it gives the macro, the build uses 21780. *)
Lemma header_not_included (name : string) (code : Z) (P : Platform) :
  existsb (String.eqb name) included = false ->
  USBDEVFS_RESET (built_with [(name, code)] P) = 21780.
Proof.
  intros Hname. unfold USBDEVFS_RESET. cbn [built_with header_USBDEVFS_RESET].
  cbn [existsb included] in Hname.
  repeat match type of Hname with
    | (_ || _)%bool = false =>
        let Hhere := fresh "Hhere" in
        apply Bool.orb_false_iff in Hname as [Hhere Hname]
    end.
  cbn [visible included find fst].
  repeat match goal with
    | H : (name =? ?f)%string = false |- _ => rewrite H; clear H
    end.
  reflexivity.
Qed.

(** C7, at a platform that breaks it.  Linux on MIPS defines the constant,
    as 536892692, in [<linux/usbdevice_fs.h>]; the program includes six
    other headers, so its [#ifndef] finds no definition and the reset
    request goes out with the fallback 21780 and not with the platform's
    constant. *)
Theorem fallback_shadows_platform_constant :
  let r := run (built_with linux_mips_headers healthy) 0 ["usbreset"; usb2] in
  platform_constant linux_mips_headers = Some 536892692
  /\ visible linux_mips_headers included = None
  /\ ioctls (events r) = [(3, 21780, 0)]
  /\ ioctls (events r) <> [(3, 536892692, 0)].
Proof.
  cbv zeta. repeat (split; [vm_compute; reflexivity|]).
  intros H. vm_compute in H. discriminate H.
Qed.
